(** * mgt-login: the login button and flyout of the Microsoft Graph Toolkit

    A shallow embedding of [src/components/mgt-login/mgt-login.ts] and the
    properties of its small state machine: login, logout, loadState, click
    routing and the flyout.

    The component is a class with mutable fields that talks to two
    collaborators: the global authentication provider and the host page's
    event listeners.  Its methods are embedded as computations of a small
    monad [Async] that threads the world (the component, the global provider,
    the listeners), records what the outside can observe in a trace, and ends
    in one of the three ways a promise can end.

    An [await] is run up to the settlement of the awaited promise: the
    continuation of a method follows its first half directly, with no other
    event of the page in between.  Overlapping calls are outside the model. *)

From Stdlib Require Import String List Bool.
From ExtLib Require Import Structures.Monad.
Import ListNotations.
Import MonadNotation.
Local Open Scope monad_scope.
Local Open Scope string_scope.

Set Implicit Arguments.

(** ** JavaScript values *)

Module Js.

(** A field that holds an object or a string, or one of the two empty
    values of JavaScript. *)
Inductive Nullable (A : Type) : Type :=
| undefined : Nullable A
| null : Nullable A
| value (a : A) : Nullable A.

Arguments undefined {A}.
Arguments null {A}.
Arguments value {A} a.

(** Truthiness of an object-typed field: an object is truthy, [null] and
    [undefined] are not. *)
Definition truthy {A : Type} (v : Nullable A) : bool :=
  match v with
  | value _ => true
  | _ => false
  end.

(** What is thrown. *)
Definition Exn : Type := string.

(** How the promise of an awaited call ends: it is fulfilled with a value,
    rejected with an exception, or it never settles. *)
Inductive Outcome (A : Type) : Type :=
| Fulfilled (a : A) : Outcome A
| Rejected (e : Exn) : Outcome A
| Pending : Outcome A.

Arguments Fulfilled {A} a.
Arguments Rejected {A} e.
Arguments Pending {A}.

End Js.
Import Js.

(** ** The authentication provider ([providers/IProvider]) *)

Inductive ProviderState : Type :=
| Loading
| SignedOut
| SignedIn.

Definition ProviderState_eqb (a b : ProviderState) : bool :=
  match a, b with
  | Loading, Loading | SignedOut, SignedOut | SignedIn, SignedIn => true
  | _, _ => false
  end.

(** [graph/types]: the person shown by the component. *)
Record IDynamicPerson : Type := {
  displayName : string;
  mail : string
}.

(** One request of a batch: [batch.get(id, resource, scopes)]. *)
Record BatchRequest : Type := {
  id : string;
  resource : string;
  scopes : list string
}.

(** The response of a batch, read by the component at [me] and [photo]. *)
Record BatchResponse : Type := {
  me : Nullable IDynamicPerson;
  photo : Nullable string
}.

Module IProvider.

(** The provider as the component sees it.  [login] and [logout] are
    optional members; calling one moves the provider to a state of its own
    choice and settles the returned promise.  [graph] stands for
    [graph.forComponent(c).createBatch()] followed by [execute()] on the
    requests collected. *)
Record t : Type := {
  state : ProviderState;
  login : option (ProviderState -> ProviderState * Outcome unit);
  logout : option (ProviderState -> ProviderState * Outcome unit);
  graph : list BatchRequest -> Outcome BatchResponse
}.

Definition with_state (p : t) (st : ProviderState) : t :=
  {| state := st; login := login p; logout := logout p; graph := graph p |}.

End IProvider.

(** ** The flyout element ([sub-components/mgt-flyout]) *)

Module MgtFlyout.

Record t : Type := { isOpen : bool }.

(** The two notifications of the element that [renderFlyout] listens to. *)
Inductive Event : Type :=
| opened
| closed.

(** Modelled from the spec: the class [MgtFlyout] of
    [sub-components/mgt-flyout] is not among the sources.  The flyout is a
    popup panel that is open or not; it tells its host when it opens and
    when it closes, and a panel that is already in the state asked for
    does nothing. *)
Definition set_isOpen (f : t) (v : bool) : t * option Event :=
  if Bool.eqb (isOpen f) v then (f, None)
  else ({| isOpen := v |}, Some (if v then opened else closed)).

Definition open (f : t) : t * option Event := set_isOpen f true.

Definition close (f : t) : t * option Event := set_isOpen f false.

End MgtFlyout.

(** ** The component *)

Inductive LoginButtonType : Type :=
| avatar
| name
| avatarAndName.

Inductive EventName : Type :=
| loginInitiated
| loginCompleted
| loginFailed
| logoutInitiated
| logoutCompleted.

Definition EventName_eqb (a b : EventName) : bool :=
  match a, b with
  | loginInitiated, loginInitiated
  | loginCompleted, loginCompleted
  | loginFailed, loginFailed
  | logoutInitiated, logoutInitiated
  | logoutCompleted, logoutCompleted => true
  | _, _ => false
  end.

(** The fields of [MgtLogin].  [flyout] is what the getter of that name
    finds in the render root: nothing before the first render, the
    [mgt-flyout] element afterwards. *)
Record MgtLogin : Type := {
  userDetails : Nullable IDynamicPerson;
  buttonType : LoginButtonType;
  _isFlyoutOpen : bool;
  _image : Nullable string;
  flyout : option MgtFlyout.t
}.

(** What the outside observes of a run: a notification, with the component
    as a listener finds it when the notification is dispatched, and the
    calls made on the provider and on the flyout element. *)
Inductive Obs : Type :=
| Fired (e : EventName) (seen : MgtLogin)
| ProviderLogin
| ProviderLogout
| BatchExecute (reqs : list BatchRequest)
| FlyoutOpen
| FlyoutClose.

(** The world a method runs in: [this], [Providers.globalProvider], and the
    listeners of the host page, which decide for each notification whether
    it is suppressed. *)
Record World : Type := {
  self : MgtLogin;
  globalProvider : option IProvider.t;
  suppressed : EventName -> bool
}.

(** ** The monad of asynchronous methods *)

Record Run (A : Type) : Type := {
  outcome : Outcome A;
  final : World;
  trace : list Obs
}.

Definition Async (A : Type) : Type := World -> Run A.

Definition Async_ret {A : Type} (a : A) : Async A :=
  fun w => {| outcome := Fulfilled a; final := w; trace := [] |}.

Definition Async_bind {A B : Type} (m : Async A) (k : A -> Async B) : Async B :=
  fun w =>
    match m w with
    | {| outcome := Fulfilled a; final := w1; trace := t1 |} =>
        match k a w1 with
        | {| outcome := o; final := w2; trace := t2 |} =>
            {| outcome := o; final := w2; trace := t1 ++ t2 |}
        end
    | {| outcome := Rejected e; final := w1; trace := t1 |} =>
        {| outcome := Rejected e; final := w1; trace := t1 |}
    | {| outcome := Pending; final := w1; trace := t1 |} =>
        {| outcome := Pending; final := w1; trace := t1 |}
    end.

#[export] Instance Monad_Async : Monad Async := {
  ret := @Async_ret;
  bind := @Async_bind
}.

(** *** Reading and writing the world *)

Definition this : Async MgtLogin :=
  fun w => {| outcome := Fulfilled (self w); final := w; trace := [] |}.

Definition assign (f : MgtLogin -> MgtLogin) : Async unit :=
  fun w =>
    {| outcome := Fulfilled tt;
       final := {| self := f (self w);
                   globalProvider := globalProvider w;
                   suppressed := suppressed w |};
       trace := [] |}.

Definition emit (o : Obs) : Async unit :=
  fun w => {| outcome := Fulfilled tt; final := w; trace := [o] |}.

Definition set_userDetails (v : Nullable IDynamicPerson) (c : MgtLogin) : MgtLogin :=
  {| userDetails := v; buttonType := buttonType c;
     _isFlyoutOpen := _isFlyoutOpen c; _image := _image c; flyout := flyout c |}.

Definition set_buttonType (b : LoginButtonType) (c : MgtLogin) : MgtLogin :=
  {| userDetails := userDetails c; buttonType := b;
     _isFlyoutOpen := _isFlyoutOpen c; _image := _image c; flyout := flyout c |}.

Definition set__isFlyoutOpen (b : bool) (c : MgtLogin) : MgtLogin :=
  {| userDetails := userDetails c; buttonType := buttonType c;
     _isFlyoutOpen := b; _image := _image c; flyout := flyout c |}.

Definition set__image (v : Nullable string) (c : MgtLogin) : MgtLogin :=
  {| userDetails := userDetails c; buttonType := buttonType c;
     _isFlyoutOpen := _isFlyoutOpen c; _image := v; flyout := flyout c |}.

Definition set_flyout (f : option MgtFlyout.t) (c : MgtLogin) : MgtLogin :=
  {| userDetails := userDetails c; buttonType := buttonType c;
     _isFlyoutOpen := _isFlyoutOpen c; _image := _image c; flyout := f |}.

(** [Providers.globalProvider] *)
Definition Providers_globalProvider : Async (option IProvider.t) :=
  fun w => {| outcome := Fulfilled (globalProvider w); final := w; trace := [] |}.

(** Modelled from the spec: [fireCustomEvent] belongs to [MgtBaseComponent],
    which is not among the sources.  It dispatches a cancelable notification
    to the listeners of the host page and answers [false] when a listener
    suppresses it. *)
Definition fireCustomEvent (e : EventName) : Async bool :=
  fun w =>
    {| outcome := Fulfilled (negb (suppressed w e));
       final := w;
       trace := [Fired e (self w)] |}.

(** [await provider.login()] and [await provider.logout()]: the call is
    observed, the provider moves to the state it chooses, and the method
    goes on with the provider object as it is then, when the promise is
    fulfilled; a rejection is thrown from the [await]. *)
Definition await_call (o : Obs) (p : IProvider.t)
    (op : ProviderState -> ProviderState * Outcome unit) : Async IProvider.t :=
  fun w =>
    let p' := IProvider.with_state p (fst (op (IProvider.state p))) in
    {| outcome := match snd (op (IProvider.state p)) with
                  | Fulfilled _ => Fulfilled p'
                  | Rejected e => Rejected e
                  | Pending => Pending
                  end;
       final := {| self := self w;
                   globalProvider := Some p';
                   suppressed := suppressed w |};
       trace := [o] |}.

(** [await batch.execute()] *)
Definition await_execute (p : IProvider.t) (batch : list BatchRequest)
  : Async BatchResponse :=
  fun w =>
    {| outcome := IProvider.graph p batch; final := w; trace := [BatchExecute batch] |}.

(** [batch.get(id, resource, scopes)] *)
Definition batch_get (batch : list BatchRequest) (i r : string) (sc : list string)
  : list BatchRequest :=
  batch ++ [{| id := i; resource := r; scopes := sc |}].

(** A call whose promise is dropped: the caller goes on whatever becomes of
    it. *)
Definition detached {A : Type} (m : Async A) : Async unit :=
  fun w =>
    match m w with
    | {| outcome := _; final := w1; trace := t1 |} =>
        {| outcome := Fulfilled tt; final := w1; trace := t1 |}
    end.

(** *** The methods of [MgtLogin] *)

Definition constructor : MgtLogin :=
  {| userDetails := undefined;
     buttonType := avatarAndName;
     _isFlyoutOpen := false;
     _image := undefined;
     flyout := None |}.

(** The two listeners that [renderFlyout] puts on the flyout element. *)
Definition renderFlyout_listener (e : MgtFlyout.Event) : MgtLogin -> MgtLogin :=
  match e with
  | MgtFlyout.opened => set__isFlyoutOpen true
  | MgtFlyout.closed => set__isFlyoutOpen false
  end.

(** A method call on the flyout element of the render root; the element's
    notification, if any, reaches the listener before the call returns. *)
Definition flyout_call (o : Obs)
    (m : MgtFlyout.t -> MgtFlyout.t * option MgtFlyout.Event)
    (f : MgtFlyout.t) : Async unit :=
  emit o ;;
  assign (set_flyout (Some (fst (m f)))) ;;
  match snd (m f) with
  | Some e => assign (renderFlyout_listener e)
  | None => ret tt
  end.

Definition showFlyout : Async unit :=
  c <- this ;;
  match flyout c with
  | Some f => flyout_call FlyoutOpen MgtFlyout.open f
  | None => ret tt
  end.

Definition hideFlyout : Async unit :=
  c <- this ;;
  match flyout c with
  | Some f => flyout_call FlyoutClose MgtFlyout.close f
  | None => ret tt
  end.

Definition login : Async unit :=
  c <- this ;;
  stop <- (if truthy (userDetails c) then ret true
           else fired <- fireCustomEvent loginInitiated ;; ret (negb fired)) ;;
  if (stop : bool) then ret tt
  else
    provider <- Providers_globalProvider ;;
    match provider with
    | Some p =>
        match IProvider.login p with
        | Some op =>
            p' <- await_call ProviderLogin p op ;;
            if ProviderState_eqb (IProvider.state p') SignedIn
            then fireCustomEvent loginCompleted ;; ret tt
            else fireCustomEvent loginFailed ;; ret tt
        | None => ret tt
        end
    | None => ret tt
    end.

Definition logout : Async unit :=
  fired <- fireCustomEvent logoutInitiated ;;
  if negb fired then ret tt
  else
    provider <- Providers_globalProvider ;;
    match provider with
    | Some p =>
        match IProvider.logout p with
        | Some op =>
            await_call ProviderLogout p op ;;
            assign (set_userDetails null) ;;
            hideFlyout ;;
            fireCustomEvent logoutCompleted ;;
            ret tt
        | None => ret tt
        end
    | None => ret tt
    end.

Definition loadState : Async unit :=
  provider <- Providers_globalProvider ;;
  c <- this ;;
  match provider with
  | Some p =>
      if negb (truthy (userDetails c)) then
        if ProviderState_eqb (IProvider.state p) SignedIn then
          let batch := [] in
          let batch := batch_get batch "me" "me" ["user.read"] in
          let batch := batch_get batch "photo" "me/photo/$value" ["user.read"] in
          response <- await_execute p batch ;;
          assign (set__image (photo response)) ;;
          assign (set_userDetails (me response))
        else assign (set_userDetails null)
      else ret tt
  | None => ret tt
  end.

Definition onClick : Async unit :=
  c <- this ;;
  if truthy (userDetails c) then showFlyout
  else detached login.

(** *** Rendering *)

Inductive AvatarSize : Type :=
| small
| large.

(** The properties given to an [mgt-person] element. *)
Record MgtPerson : Type := {
  personDetails : Nullable IDynamicPerson;
  personImage : Nullable string;
  avatarSize : AvatarSize;
  showName : bool;
  showEmail : bool
}.

(** The commands of the popup, each with the method its button calls. *)
Inductive PopupCommand : Type :=
| SignOut (click : Async unit).

Record Popup : Type := {
  popupContent : MgtPerson;
  popupCommands : list PopupCommand
}.

Definition renderFlyoutContent (c : MgtLogin) : option Popup :=
  if negb (truthy (userDetails c)) then None
  else
    let avatarSize := large in
    Some {| popupContent := {| personDetails := userDetails c;
                               personImage := _image c;
                               avatarSize := avatarSize;
                               showName := true;
                               showEmail := true |};
            popupCommands := [SignOut logout] |}.

Inductive ButtonContent : Type :=
| NameSpan (text : string)
| PersonButton (p : MgtPerson)
| SignInLabel.

Definition renderButtonContent (c : MgtLogin) : ButtonContent :=
  match userDetails c with
  | value u =>
      match buttonType c with
      | name => NameSpan (displayName u)
      | b =>
          let avatarSize := small in
          PersonButton {| personDetails := userDetails c;
                          personImage := _image c;
                          avatarSize := avatarSize;
                          showName := match b with avatarAndName => true | _ => false end;
                          showEmail := false |}
      end
  | _ => SignInLabel
  end.

(** The first render puts the [mgt-flyout] element, closed, in the render
    root; later renders keep the element. *)
Definition firstRender (c : MgtLogin) : MgtLogin :=
  match flyout c with
  | Some _ => c
  | None => set_flyout (Some {| MgtFlyout.isOpen := false |}) c
  end.

(** ** The component in a page *)

(** What can happen to a component in a page, one thing at a time: it is
    rendered, its button is clicked, one of its methods runs, the user
    dismisses the flyout, the page writes one of the two public properties,
    installs another provider or other listeners. *)
Inductive Action : Type :=
| Render
| Click
| CallLogin
| CallLogout
| CallLoadState
| Dismiss
| WriteUserDetails (v : Nullable IDynamicPerson)
| WriteButtonType (b : LoginButtonType)
| InstallProvider (p : option IProvider.t)
| InstallListeners (s : EventName -> bool).

Definition on_self (f : MgtLogin -> MgtLogin) (w : World) : World :=
  {| self := f (self w); globalProvider := globalProvider w; suppressed := suppressed w |}.

Definition step (a : Action) (w : World) : World :=
  match a with
  | Render => on_self firstRender w
  | Click => final (onClick w)
  | CallLogin => final (login w)
  | CallLogout => final (logout w)
  | CallLoadState => final (loadState w)
  | Dismiss => final (hideFlyout w)
  | WriteUserDetails v => on_self (set_userDetails v) w
  | WriteButtonType b => on_self (set_buttonType b) w
  | InstallProvider p =>
      {| self := self w; globalProvider := p; suppressed := suppressed w |}
  | InstallListeners s =>
      {| self := self w; globalProvider := globalProvider w; suppressed := s |}
  end.

(** A freshly constructed component, in a page with no provider and no
    listener. *)
Definition initial : World :=
  {| self := constructor; globalProvider := None; suppressed := fun _ => false |}.

Definition run (acts : list Action) (w : World) : World :=
  fold_left (fun w a => step a w) acts w.

(** The worlds that the actions allowed by [allowed] lead to. *)
Inductive reachable (allowed : Action -> Prop) : World -> Prop :=
| reachable_initial : reachable allowed initial
| reachable_step a w :
    reachable allowed w -> allowed a -> reachable allowed (step a w).

Definition any_action (a : Action) : Prop := True.

(** The page never empties the user details by hand. *)
Definition no_empty_write (a : Action) : Prop :=
  match a with
  | WriteUserDetails v => truthy v = true
  | _ => True
  end.

(** ** Reading traces and states *)

Definition is_fired (e : EventName) (o : Obs) : bool :=
  match o with
  | Fired e' _ => EventName_eqb e e'
  | _ => false
  end.

Definition fired (e : EventName) (tr : list Obs) : bool := existsb (is_fired e) tr.

Definition count_fired (e : EventName) (tr : list Obs) : nat :=
  length (filter (is_fired e) tr).

Definition is_call (o : Obs) : bool :=
  match o with
  | ProviderLogin | ProviderLogout | BatchExecute _ => true
  | _ => false
  end.

Definition provider_called (tr : list Obs) : bool := existsb is_call tr.

(** A field is empty: it holds no object and no string. *)
Definition absent {A : Type} (v : Nullable A) : bool :=
  match v with
  | value _ => false
  | _ => true
  end.

(** The flag of the component agrees with the flyout element. *)
Definition flyout_synced (c : MgtLogin) : Prop :=
  _isFlyoutOpen c = match flyout c with
                    | Some f => MgtFlyout.isOpen f
                    | None => false
                    end.

(** The global provider has no member [m]: there is no provider, or the
    provider lacks the member. *)
Definition lacks {A : Type} (m : IProvider.t -> option A) (w : World) : Prop :=
  match globalProvider w with
  | Some p => m p = None
  | None => True
  end.

(** The two requests that [loadState] puts in its batch. *)
Definition profile_and_photo : list BatchRequest :=
  [ {| id := "me"; resource := "me"; scopes := ["user.read"] |};
    {| id := "photo"; resource := "me/photo/$value"; scopes := ["user.read"] |} ].

(** A method leaves the user details and the avatar image of the component
    as it found them, however it ends. *)
Definition keeps_person {A : Type} (m : Async A) : Prop :=
  forall w,
    userDetails (self (final (m w))) = userDetails (self w) /\
    _image (self (final (m w))) = _image (self w).

(** The flyout element of the component, if rendered, is closed. *)
Definition flyout_closed (c : MgtLogin) : Prop :=
  match flyout c with
  | Some f => MgtFlyout.isOpen f = false
  | None => True
  end.

(** ** Sample pages *)

Module Sample.

Definition alice : IDynamicPerson :=
  {| displayName := "Alice"; mail := "alice@contoso.com" |}.

(** A provider whose login and logout end as told, and whose batch answers
    with Alice and her photo. *)
Definition provider (st : ProviderState)
    (after_login : ProviderState * Outcome unit) : IProvider.t :=
  {| IProvider.state := st;
     IProvider.login := Some (fun _ => after_login);
     IProvider.logout := Some (fun _ => (SignedOut, Fulfilled tt));
     IProvider.graph :=
       fun _ => Fulfilled {| me := value alice; photo := value "photo-of-alice" |} |}.

(** A provider with neither login nor logout. *)
Definition bare_provider : IProvider.t :=
  {| IProvider.state := SignedOut;
     IProvider.login := None;
     IProvider.logout := None;
     IProvider.graph := fun _ => Rejected "no graph" |}.

(** A rendered, signed-out component in a page with the given provider. *)
Definition page (p : option IProvider.t) (s : EventName -> bool) : World :=
  {| self := firstRender constructor; globalProvider := p; suppressed := s |}.

Definition nobody_suppresses (e : EventName) : bool := false.

Definition suppress (e : EventName) : EventName -> bool := EventName_eqb e.

(** The component after [loadState] with a signed-in provider: Alice and
    her photo are cached. *)
Definition signed_in_page : World :=
  step CallLoadState
    (page (Some (provider SignedIn (SignedIn, Fulfilled tt))) nobody_suppresses).

(** The same with the flyout open. *)
Definition flyout_page : World := step Click signed_in_page.

(** Details given by the page, no provider. *)
Definition injected_page : World :=
  step (WriteUserDetails (value alice)) (page None nobody_suppresses).

End Sample.

(** ** The button *)

(** [classMap] of lit-html: the class names whose entry is true, in the
    order of the entries. *)
Definition classMap (classes : list (string * bool)) : list string :=
  map fst (filter snd classes).

(** The [button] element that [renderButton] produces. *)
Record Button : Type := {
  disabled : bool;
  onclick : Async unit;
  classes : list string;
  role : string;
  buttonContent : ButtonContent
}.

(** [isLoadingState] is a getter of [MgtBaseComponent], which is not among
    the sources; its value is an argument here. *)
Definition renderButton (isLoadingState : bool) (c : MgtLogin) : Button :=
  let classes := [("login-button", true); ("no-click", _isFlyoutOpen c)] in
  {| disabled := isLoadingState;
     onclick := onClick;
     classes := classMap classes;
     role := "button";
     buttonContent := renderButtonContent c |}.


(** ** Statements that the code is compared with *)

(** When the flyout flag is up, there are user details. *)
Definition open_implies_details (c : MgtLogin) : Prop :=
  _isFlyoutOpen c = true -> truthy (userDetails c) = true.

(** What holds in every world the component can be in, whatever the page
    does: the flag agrees with the element. *)
Definition flyout_invariant (c : MgtLogin) : Prop :=
  flyout_synced c /\ open_implies_details c.

(** "In every reachable state, flyout-open implies user details." *)
Definition open_implies_details_always : Prop :=
  forall w, reachable any_action w -> open_implies_details (self w).

(** "After the awaited provider logout, user details and image are both
    cleared and the flyout is closed, before logoutCompleted fires": what a
    listener of [logoutCompleted] finds. *)
Definition logout_clears_details_and_image : Prop :=
  forall w p op c,
    suppressed w logoutInitiated = false ->
    globalProvider w = Some p ->
    IProvider.logout p = Some op ->
    snd (op (IProvider.state p)) = Fulfilled tt ->
    flyout_synced (self w) ->
    In (Fired logoutCompleted c) (trace (logout w)) ->
    absent (userDetails c) = true /\ absent (_image c) = true /\ _isFlyoutOpen c = false.

(** The condition under which [loadState] is said to fetch: a provider that
    is signed in, and no user details cached. *)
Definition fetch_condition (w : World) : bool :=
  match globalProvider w with
  | Some p => ProviderState_eqb (IProvider.state p) SignedIn
              && absent (userDetails (self w))
  | None => false
  end.

(** "Otherwise the user details are set to null." *)
Definition loadState_otherwise_clears : Prop :=
  forall w,
    fetch_condition w = false ->
    userDetails (self (final (loadState w))) = null.

(** * Properties *)

(** ** Running the methods *)

Ltac unfold_async :=
  cbv [login logout loadState onClick showFlyout hideFlyout flyout_call detached
       ExtLib.Structures.Monad.bind ExtLib.Structures.Monad.ret Monad_Async
       Async_bind Async_ret this assign emit Providers_globalProvider
       fireCustomEvent await_call await_execute].

Lemma ProviderState_eqb_eq (a b : ProviderState) :
  ProviderState_eqb a b = true <-> a = b.
Proof. destruct a, b; cbn; split; congruence. Qed.

Lemma ProviderState_eqb_neq (a b : ProviderState) :
  ProviderState_eqb a b = false <-> a <> b.
Proof. destruct a, b; cbn; split; congruence. Qed.

Lemma World_eta (w : World) :
  {| self := self w; globalProvider := globalProvider w; suppressed := suppressed w |} = w.
Proof. destruct w; reflexivity. Qed.

(** [login] with user details present does nothing at all. *)
Lemma login_present_run (w : World) :
  truthy (userDetails (self w)) = true ->
  login w = {| outcome := Fulfilled tt; final := w; trace := [] |}.
Proof.
  intros H. unfold_async. cbn. rewrite H. cbn. now rewrite ?World_eta.
Qed.

(** [login] up to the provider: the notification is dispatched, and the
    method stops there when a listener suppresses it or when there is no
    provider to call. *)
Lemma login_stops_run (w : World) :
  truthy (userDetails (self w)) = false ->
  suppressed w loginInitiated = true \/ lacks IProvider.login w ->
  login w = {| outcome := Fulfilled tt; final := w;
               trace := [Fired loginInitiated (self w)] |}.
Proof.
  intros H Hstop. unfold_async. cbn. rewrite H. cbn.
  destruct (suppressed w loginInitiated) eqn:Hs; cbn.
  - now rewrite ?World_eta.
  - destruct Hstop as [|Hl]; [discriminate|]. unfold lacks in Hl.
    destruct (globalProvider w) as [p|]; cbn.
    + rewrite Hl. cbn. now rewrite ?World_eta.
    + now rewrite ?World_eta.
Qed.

(** [login] through the provider: what the run is for each way the awaited
    promise can end. *)
Lemma login_calls_run (w : World) (p : IProvider.t)
    (op : ProviderState -> ProviderState * Outcome unit) :
  truthy (userDetails (self w)) = false ->
  suppressed w loginInitiated = false ->
  globalProvider w = Some p ->
  IProvider.login p = Some op ->
  let p' := IProvider.with_state p (fst (op (IProvider.state p))) in
  let w' := {| self := self w; globalProvider := Some p'; suppressed := suppressed w |} in
  login w =
  match snd (op (IProvider.state p)) with
  | Fulfilled _ =>
      {| outcome := Fulfilled tt; final := w';
         trace := [Fired loginInitiated (self w); ProviderLogin;
                   Fired (if ProviderState_eqb (IProvider.state p') SignedIn
                          then loginCompleted else loginFailed) (self w)] |}
  | Rejected e =>
      {| outcome := Rejected e; final := w';
         trace := [Fired loginInitiated (self w); ProviderLogin] |}
  | Pending =>
      {| outcome := Pending; final := w';
         trace := [Fired loginInitiated (self w); ProviderLogin] |}
  end.
Proof.
  intros H Hs Hp Hop. unfold_async. cbn. rewrite H. cbn. rewrite Hs. cbn.
  rewrite Hp. cbn. rewrite Hop. cbn.
  destruct (op (IProvider.state p)) as [st' o]; cbn.
  destruct o; cbn; try reflexivity.
  destruct (ProviderState_eqb st' SignedIn); reflexivity.
Qed.

(** [login] never touches the component. *)
Lemma lacks_no_provider {A : Type} (m : IProvider.t -> option A) (w : World) :
  globalProvider w = None -> lacks m w.
Proof. unfold lacks. now intros ->. Qed.

Lemma lacks_no_member {A : Type} (m : IProvider.t -> option A) (w : World)
    (p : IProvider.t) :
  globalProvider w = Some p -> m p = None -> lacks m w.
Proof. unfold lacks. now intros ->. Qed.

Lemma login_self (w : World) : self (final (login w)) = self w.
Proof.
  destruct (truthy (userDetails (self w))) eqn:H.
  - now rewrite login_present_run.
  - destruct (suppressed w loginInitiated) eqn:Hs.
    { rewrite login_stops_run; [reflexivity | assumption | now left]. }
    destruct (globalProvider w) as [p|] eqn:Hp.
    2:{ rewrite login_stops_run; [reflexivity | assumption | right].
        now apply lacks_no_provider. }
    destruct (IProvider.login p) as [op|] eqn:Hop.
    2:{ rewrite login_stops_run; [reflexivity | assumption | right].
        now apply lacks_no_member with p. }
    rewrite (login_calls_run w H Hs Hp Hop).
    destruct (snd (op (IProvider.state p))); reflexivity.
Qed.

(** [logout] up to the provider. *)
Lemma logout_stops_run (w : World) :
  suppressed w logoutInitiated = true \/ lacks IProvider.logout w ->
  logout w = {| outcome := Fulfilled tt; final := w;
                trace := [Fired logoutInitiated (self w)] |}.
Proof.
  intros Hstop. unfold_async. cbn.
  destruct (suppressed w logoutInitiated) eqn:Hs; cbn; [reflexivity|].
  destruct Hstop as [|Hl]; [discriminate|]. unfold lacks in Hl.
  destruct (globalProvider w) as [p|]; cbn; [|reflexivity].
  rewrite Hl. reflexivity.
Qed.

(** ** login *)

(** C7. [login] called while user details are present does nothing: it
    returns normally, fires no notification (not even loginInitiated), makes
    no call on the provider, and leaves the whole world, so the user
    details, the image and the flyout flag, as it was. *)
Theorem login_noop_when_signed_in (w : World) :
  truthy (userDetails (self w)) = true ->
  let r := login w in
  outcome r = Fulfilled tt /\
  trace r = [] /\
  final r = w /\
  userDetails (self (final r)) = userDetails (self w) /\
  _image (self (final r)) = _image (self w) /\
  _isFlyoutOpen (self (final r)) = _isFlyoutOpen (self w).
Proof.
  intros H r. subst r. rewrite (login_present_run w H). cbn. auto 10.
Qed.

Lemma login_noop_when_signed_in_witness :
  let r := login Sample.signed_in_page in
  outcome r = Fulfilled tt /\
  trace r = [] /\
  final r = Sample.signed_in_page /\
  userDetails (self (final r)) = userDetails (self Sample.signed_in_page) /\
  _image (self (final r)) = _image (self Sample.signed_in_page) /\
  _isFlyoutOpen (self (final r)) = _isFlyoutOpen (self Sample.signed_in_page).
Proof.
  apply (login_noop_when_signed_in Sample.signed_in_page). reflexivity.
Defined.

(** C3. When a listener suppresses loginInitiated, [login] returns normally
    without calling the provider and without firing loginCompleted or
    loginFailed; nothing of the world changes, and the only notification of
    the call is the suppressed one. *)
Theorem login_suppressed_is_silent (w : World) :
  suppressed w loginInitiated = true ->
  let r := login w in
  outcome r = Fulfilled tt /\
  final r = w /\
  provider_called (trace r) = false /\
  fired loginCompleted (trace r) = false /\
  fired loginFailed (trace r) = false /\
  (truthy (userDetails (self w)) = false ->
   trace r = [Fired loginInitiated (self w)]).
Proof.
  intros Hs r. subst r.
  destruct (truthy (userDetails (self w))) eqn:H.
  - rewrite (login_present_run w H). cbn. repeat split; congruence.
  - rewrite (login_stops_run w H (or_introl Hs)). cbn. auto 10.
Qed.

Lemma login_suppressed_is_silent_witness :
  let w := Sample.page (Some (Sample.provider SignedOut (SignedIn, Fulfilled tt)))
             (Sample.suppress loginInitiated) in
  provider_called (trace (login w)) = false /\
  trace (login w) = [Fired loginInitiated (self w)].
Proof.
  intros w.
  destruct (login_suppressed_is_silent w eq_refl) as (_ & _ & Hc & _ & _ & Ht).
  split; [exact Hc | exact (Ht eq_refl)].
Defined.

(** C1. When [login] runs with no user details, loginInitiated is not
    suppressed, the global provider has a login operation and the awaited
    login is fulfilled, then after that call exactly one of loginCompleted
    and loginFailed fires: loginCompleted if and only if the provider is
    SignedIn at that point, loginFailed if and only if it is not. *)
Theorem login_completed_xor_failed (w : World) (p : IProvider.t)
    (op : ProviderState -> ProviderState * Outcome unit) :
  truthy (userDetails (self w)) = false ->
  suppressed w loginInitiated = false ->
  globalProvider w = Some p ->
  IProvider.login p = Some op ->
  snd (op (IProvider.state p)) = Fulfilled tt ->
  let r := login w in
  exists p' e,
    globalProvider (final r) = Some p' /\
    IProvider.state p' = fst (op (IProvider.state p)) /\
    outcome r = Fulfilled tt /\
    trace r = [Fired loginInitiated (self w); ProviderLogin; Fired e (self w)] /\
    count_fired loginCompleted (trace r) + count_fired loginFailed (trace r) = 1 /\
    (fired loginCompleted (trace r) = true <-> IProvider.state p' = SignedIn) /\
    (fired loginFailed (trace r) = true <-> IProvider.state p' <> SignedIn) /\
    (fired loginCompleted (trace r) = true -> fired loginFailed (trace r) = true -> False).
Proof.
  intros H Hs Hp Hop Hful r. subst r.
  rewrite (login_calls_run w H Hs Hp Hop), Hful. cbn.
  destruct (fst (op (IProvider.state p))); cbn;
    eexists; eexists; (split; [reflexivity|]); cbn;
    repeat split; intros; congruence.
Qed.

Lemma login_completed_xor_failed_witness :
  let w := Sample.page (Some (Sample.provider SignedOut (SignedIn, Fulfilled tt)))
             Sample.nobody_suppresses in
  fired loginCompleted (trace (login w)) = true /\
  fired loginFailed (trace (login w)) = false.
Proof.
  intros w.
  destruct (login_completed_xor_failed w eq_refl eq_refl eq_refl eq_refl eq_refl)
    as (p' & e & _ & Hst & _ & _ & _ & Hc & Hf & _).
  assert (Hin : IProvider.state p' = SignedIn) by exact Hst.
  split.
  - apply Hc. exact Hin.
  - destruct (fired loginFailed (trace (login w))); [|reflexivity].
    destruct (proj1 Hf eq_refl Hin).
Defined.

(** C8. [login] catches nothing.  When the provider's login raises, the
    exception leaves [login] and neither loginCompleted nor loginFailed
    fires; and whenever loginFailed fires, [login] has returned normally
    from a provider login that was fulfilled and left the provider in a
    state other than SignedIn. *)
Theorem login_rejection_propagates :
  (forall w p op e,
      truthy (userDetails (self w)) = false ->
      suppressed w loginInitiated = false ->
      globalProvider w = Some p ->
      IProvider.login p = Some op ->
      snd (op (IProvider.state p)) = Rejected e ->
      outcome (login w) = Rejected e /\
      trace (login w) = [Fired loginInitiated (self w); ProviderLogin] /\
      fired loginCompleted (trace (login w)) = false /\
      fired loginFailed (trace (login w)) = false) /\
  (forall w,
      fired loginFailed (trace (login w)) = true ->
      outcome (login w) = Fulfilled tt /\
      exists p op,
        globalProvider w = Some p /\
        IProvider.login p = Some op /\
        snd (op (IProvider.state p)) = Fulfilled tt /\
        fst (op (IProvider.state p)) <> SignedIn).
Proof.
  split.
  - intros w p op e H Hs Hp Hop Hrej.
    rewrite (login_calls_run w H Hs Hp Hop), Hrej. cbn. auto.
  - intros w.
    destruct (truthy (userDetails (self w))) eqn:H.
    { rewrite (login_present_run w H). cbn. discriminate. }
    destruct (suppressed w loginInitiated) eqn:Hs.
    { rewrite (login_stops_run w H (or_introl Hs)). cbn. discriminate. }
    destruct (globalProvider w) as [p|] eqn:Hp.
    2:{ rewrite (login_stops_run w H (or_intror (lacks_no_provider _ w Hp))).
        cbn. discriminate. }
    destruct (IProvider.login p) as [op|] eqn:Hop.
    2:{ rewrite (login_stops_run w H (or_intror (lacks_no_member _ w Hp Hop))).
        cbn. discriminate. }
    rewrite (login_calls_run w H Hs Hp Hop).
    destruct (snd (op (IProvider.state p))) as [[]| |] eqn:Hout; cbn;
      try discriminate.
    destruct (fst (op (IProvider.state p))) eqn:Hst; cbn; try discriminate;
      intros _; (split; [reflexivity|]); exists p, op;
      rewrite Hst; repeat split; auto; discriminate.
Qed.

Lemma login_rejection_propagates_witness :
  let w := Sample.page (Some (Sample.provider SignedOut (SignedOut, Rejected "popup closed")))
             Sample.nobody_suppresses in
  outcome (login w) = Rejected "popup closed" /\
  fired loginFailed (trace (login w)) = false.
Proof.
  intros w.
  destruct (proj1 login_rejection_propagates w _ _ "popup closed"
              eq_refl eq_refl eq_refl eq_refl eq_refl) as (Ho & _ & _ & Hf).
  split; assumption.
Defined.

(** ** The flyout *)

(** What [showFlyout] does to a rendered component. *)
Lemma showFlyout_effect (w : World) (f : MgtFlyout.t) :
  flyout (self w) = Some f ->
  let r := showFlyout w in
  outcome r = Fulfilled tt /\
  trace r = [FlyoutOpen] /\
  flyout (self (final r)) = Some {| MgtFlyout.isOpen := true |} /\
  (flyout_synced (self w) -> _isFlyoutOpen (self (final r)) = true) /\
  globalProvider (final r) = globalProvider w /\
  suppressed (final r) = suppressed w.
Proof.
  intros Hf. unfold_async. cbn. rewrite Hf. unfold flyout_synced. rewrite Hf.
  destruct f as [[|]]; cbn; auto 10.
Qed.

Lemma showFlyout_keeps : keeps_person showFlyout.
Proof.
  intros w. unfold_async. cbn.
  destruct (flyout (self w)) as [[[|]]|]; cbn; auto.
Qed.

Lemma hideFlyout_keeps : keeps_person hideFlyout.
Proof.
  intros w. unfold_async. cbn.
  destruct (flyout (self w)) as [[[|]]|]; cbn; auto.
Qed.

Lemma onClick_signed_out_run (w : World) :
  truthy (userDetails (self w)) = false ->
  onClick w = {| outcome := Fulfilled tt; final := final (login w);
                 trace := trace (login w) |}.
Proof.
  intros H.
  cbv [onClick ExtLib.Structures.Monad.bind Monad_Async Async_bind this detached].
  rewrite H. destruct (login w); reflexivity.
Qed.

Lemma onClick_signed_in_run (w : World) :
  truthy (userDetails (self w)) = true ->
  onClick w = showFlyout w.
Proof.
  intros H.
  cbv [onClick ExtLib.Structures.Monad.bind Monad_Async Async_bind this].
  rewrite H. destruct (showFlyout w) as [[]]; reflexivity.
Qed.

Lemma onClick_keeps : keeps_person onClick.
Proof.
  intros w. destruct (truthy (userDetails (self w))) eqn:H.
  - rewrite (onClick_signed_in_run w H). apply showFlyout_keeps.
  - rewrite (onClick_signed_out_run w H). cbn [final]. now rewrite login_self.
Qed.

(** ** Operations the provider lacks *)

(** C9. When there is no global provider, or the provider lacks the
    operation, [login] and [logout] return normally, leave the whole world
    (user details, image and flyout included) as it was, call nothing on the
    provider, fire neither a completed nor a failed notification, and fire
    nothing but the initiated notification. *)
Theorem missing_operation_only_initiated (w : World) :
  (lacks IProvider.login w ->
   let r := login w in
   outcome r = Fulfilled tt /\
   final r = w /\
   provider_called (trace r) = false /\
   fired loginCompleted (trace r) = false /\
   fired loginFailed (trace r) = false /\
   Forall (fun o => o = Fired loginInitiated (self w)) (trace r) /\
   (truthy (userDetails (self w)) = false ->
    trace r = [Fired loginInitiated (self w)])) /\
  (lacks IProvider.logout w ->
   let r := logout w in
   outcome r = Fulfilled tt /\
   final r = w /\
   provider_called (trace r) = false /\
   fired logoutCompleted (trace r) = false /\
   trace r = [Fired logoutInitiated (self w)]).
Proof.
  split.
  - intros Hl r. subst r.
    destruct (truthy (userDetails (self w))) eqn:H.
    + rewrite (login_present_run w H). cbn. repeat split; auto; discriminate.
    + rewrite (login_stops_run w H (or_intror Hl)). cbn. repeat split; auto.
  - intros Hl r. subst r.
    rewrite (logout_stops_run w (or_intror Hl)). cbn. auto.
Qed.

Lemma missing_operation_only_initiated_witness :
  let w := Sample.page (Some Sample.bare_provider) Sample.nobody_suppresses in
  (final (login w) = w /\ trace (login w) = [Fired loginInitiated (self w)]) /\
  (final (logout w) = w /\ trace (logout w) = [Fired logoutInitiated (self w)]).
Proof.
  intros w.
  destruct (missing_operation_only_initiated w) as [Hin Hout].
  destruct (Hin eq_refl) as (_ & Hf & _ & _ & _ & _ & Ht).
  destruct (Hout eq_refl) as (_ & Hf' & _ & _ & Ht').
  split; split; auto.
Defined.

(** ** logout *)

(** [logout] never writes the image. *)
Lemma logout_image (w : World) :
  _image (self (final (logout w))) = _image (self w).
Proof.
  destruct (suppressed w logoutInitiated) eqn:Hs.
  { now rewrite (logout_stops_run w (or_introl Hs)). }
  destruct (globalProvider w) as [p|] eqn:Hp.
  2:{ now rewrite (logout_stops_run w (or_intror (lacks_no_provider _ w Hp))). }
  destruct (IProvider.logout p) as [op|] eqn:Hop.
  2:{ now rewrite (logout_stops_run w (or_intror (lacks_no_member _ w Hp Hop))). }
  unfold_async. cbn. rewrite Hs. cbn. rewrite Hp. cbn. rewrite Hop. cbn.
  destruct (snd (op (IProvider.state p))); cbn; try reflexivity.
  destruct (flyout (self w)) as [[[|]]|]; reflexivity.
Qed.

(** C2, as the code has it.  When logoutInitiated is not suppressed, the
    global provider has a logout operation and the awaited logout is
    fulfilled, [logout] returns normally, having set the user details to
    null and closed the flyout before logoutCompleted fires: the listener of
    logoutCompleted finds the component in its final state, without user
    details, with the flyout element closed and the flag down.  The cached
    image is as it was before the call. *)
Theorem logout_clears_details_before_completed (w : World) (p : IProvider.t)
    (op : ProviderState -> ProviderState * Outcome unit) :
  suppressed w logoutInitiated = false ->
  globalProvider w = Some p ->
  IProvider.logout p = Some op ->
  snd (op (IProvider.state p)) = Fulfilled tt ->
  flyout_synced (self w) ->
  let r := logout w in
  let c' := self (final r) in
  outcome r = Fulfilled tt /\
  trace r = ([Fired logoutInitiated (self w); ProviderLogout]
             ++ match flyout (self w) with Some _ => [FlyoutClose] | None => [] end
             ++ [Fired logoutCompleted c'])%list /\
  userDetails c' = null /\
  _isFlyoutOpen c' = false /\
  flyout_closed c' /\
  _image c' = _image (self w).
Proof.
  intros Hs Hp Hop Hful Hsync. unfold_async. cbn. rewrite Hs. cbn.
  rewrite Hp. cbn. rewrite Hop. cbn. rewrite Hful. cbn.
  unfold flyout_synced, flyout_closed in *.
  destruct (flyout (self w)) as [[[|]]|] eqn:Hfl; cbn in *;
    rewrite ?Hfl; cbn; auto 10.
Qed.

Lemma logout_clears_details_before_completed_witness :
  let r := logout Sample.flyout_page in
  _isFlyoutOpen (self Sample.flyout_page) = true /\
  userDetails (self (final r)) = null /\
  _isFlyoutOpen (self (final r)) = false /\
  In (Fired logoutCompleted (self (final r))) (trace r).
Proof.
  intros r.
  destruct (logout_clears_details_before_completed Sample.flyout_page
              eq_refl eq_refl eq_refl eq_refl eq_refl)
    as (_ & Ht & Hd & Hf & _ & _).
  split; [reflexivity|]. split; [exact Hd|]. split; [exact Hf|].
  subst r. rewrite Ht. apply in_or_app. right. apply in_or_app. right.
  left. reflexivity.
Defined.

(** C2, as worded, fails: after [logout] on a component that shows Alice
    with her photo, the listener of logoutCompleted still finds the photo in
    the image field. *)
Lemma logout_keeps_image_counterexample :
  (let r := logout Sample.flyout_page in
   outcome r = Fulfilled tt /\
   fired logoutCompleted (trace r) = true /\
   _image (self (final r)) = value "photo-of-alice") /\
  ~ logout_clears_details_and_image.
Proof.
  split; [vm_compute; auto|].
  intros claim.
  destruct (claim Sample.flyout_page _ _
              (set__isFlyoutOpen false
                 (set_flyout (Some {| MgtFlyout.isOpen := false |})
                    (set_userDetails null (self Sample.flyout_page))))
              eq_refl eq_refl eq_refl eq_refl eq_refl) as (_ & Himg & _).
  - vm_compute. auto 6.
  - discriminate Himg.
Qed.

(** ** loadState *)

Lemma batch_of_loadState :
  batch_get (batch_get [] "me" "me" ["user.read"])
    "photo" "me/photo/$value" ["user.read"] = profile_and_photo.
Proof. reflexivity. Qed.

(** [loadState] without a provider, or with user details cached, does
    nothing. *)
Lemma loadState_idle_run (w : World) :
  globalProvider w = None \/ truthy (userDetails (self w)) = true ->
  loadState w = {| outcome := Fulfilled tt; final := w; trace := [] |}.
Proof.
  intros Hidle. unfold_async. cbn.
  destruct (globalProvider w) as [p|]; [|reflexivity].
  destruct Hidle as [|H]; [discriminate|]. rewrite H. reflexivity.
Qed.

(** [loadState] with a provider that is not signed in. *)
Lemma loadState_signed_out_run (w : World) (p : IProvider.t) :
  globalProvider w = Some p ->
  truthy (userDetails (self w)) = false ->
  IProvider.state p <> SignedIn ->
  loadState w = {| outcome := Fulfilled tt;
                   final := on_self (set_userDetails null) w;
                   trace := [] |}.
Proof.
  intros Hp H Hst. unfold_async. cbn. rewrite Hp, H. cbn.
  apply ProviderState_eqb_neq in Hst. rewrite Hst. reflexivity.
Qed.

(** [loadState] with a provider that is signed in. *)
Lemma loadState_signed_in_run (w : World) (p : IProvider.t) :
  globalProvider w = Some p ->
  truthy (userDetails (self w)) = false ->
  IProvider.state p = SignedIn ->
  loadState w =
  match IProvider.graph p profile_and_photo with
  | Fulfilled response =>
      {| outcome := Fulfilled tt;
         final := on_self (fun c => set_userDetails (me response)
                                      (set__image (photo response) c)) w;
         trace := [BatchExecute profile_and_photo] |}
  | Rejected e =>
      {| outcome := Rejected e; final := w;
         trace := [BatchExecute profile_and_photo] |}
  | Pending =>
      {| outcome := Pending; final := w;
         trace := [BatchExecute profile_and_photo] |}
  end.
Proof.
  intros Hp H Hst. unfold_async. cbn. rewrite Hp, H. cbn.
  apply ProviderState_eqb_eq in Hst. rewrite Hst.
  unfold profile_and_photo.
  destruct (IProvider.graph p _); reflexivity.
Qed.

(** C4, as the code has it.  With a provider that is SignedIn and no user
    details cached, [loadState] issues one batch holding the two requests
    for 'me' and 'me/photo/$value' and, when the batch is fulfilled, takes
    both the image and the user details from that one response.  With a
    provider that is not SignedIn and no user details cached, it sets the
    user details to null.  With no provider, or with user details cached, it
    changes nothing and fetches nothing. *)
Theorem loadState_cases (w : World) :
  (forall p,
      globalProvider w = Some p ->
      truthy (userDetails (self w)) = false ->
      IProvider.state p = SignedIn ->
      let r := loadState w in
      trace r = [BatchExecute profile_and_photo] /\
      (forall response,
          IProvider.graph p profile_and_photo = Fulfilled response ->
          outcome r = Fulfilled tt /\
          _image (self (final r)) = photo response /\
          userDetails (self (final r)) = me response /\
          _isFlyoutOpen (self (final r)) = _isFlyoutOpen (self w)) /\
      (forall e,
          IProvider.graph p profile_and_photo = Rejected e ->
          outcome r = Rejected e /\ final r = w)) /\
  (forall p,
      globalProvider w = Some p ->
      truthy (userDetails (self w)) = false ->
      IProvider.state p <> SignedIn ->
      let r := loadState w in
      outcome r = Fulfilled tt /\
      trace r = [] /\
      userDetails (self (final r)) = null /\
      _image (self (final r)) = _image (self w) /\
      _isFlyoutOpen (self (final r)) = _isFlyoutOpen (self w)) /\
  (globalProvider w = None \/ truthy (userDetails (self w)) = true ->
   let r := loadState w in
   outcome r = Fulfilled tt /\ trace r = [] /\ final r = w).
Proof.
  split; [|split].
  - intros p Hp H Hst r. subst r.
    rewrite (loadState_signed_in_run w Hp H Hst).
    destruct (IProvider.graph p profile_and_photo) as [resp|e|]; cbn;
      (split; [reflexivity|]); split; intros x Hx; inversion Hx; subst; auto.
  - intros p Hp H Hst r. subst r.
    rewrite (loadState_signed_out_run w Hp H Hst). cbn. auto.
  - intros Hidle r. subst r. rewrite (loadState_idle_run w Hidle). cbn. auto.
Qed.

Lemma loadState_cases_witness :
  let w := Sample.page (Some (Sample.provider SignedIn (SignedIn, Fulfilled tt)))
             Sample.nobody_suppresses in
  trace (loadState w) = [BatchExecute profile_and_photo] /\
  _image (self (final (loadState w))) = value "photo-of-alice" /\
  userDetails (self (final (loadState w))) = value Sample.alice.
Proof.
  intros w.
  destruct (proj1 (loadState_cases w) _ eq_refl eq_refl eq_refl) as (Ht & Hok & _).
  destruct (Hok _ eq_refl) as (_ & Hi & Hd & _).
  split; [exact Ht|]. split; [exact Hi | exact Hd].
Defined.

(** C4, as worded, fails in its last part: [loadState] on a component whose
    user details were given by the page, with no provider, leaves the
    details in place; so it does with a signed-in provider and details
    already cached. *)
Lemma loadState_keeps_cached_details_counterexample :
  (fetch_condition Sample.injected_page = false /\
   userDetails (self (final (loadState Sample.injected_page))) = value Sample.alice) /\
  (fetch_condition Sample.signed_in_page = false /\
   userDetails (self (final (loadState Sample.signed_in_page))) = value Sample.alice) /\
  ~ loadState_otherwise_clears.
Proof.
  split; [vm_compute; auto|]. split; [vm_compute; auto|].
  intros claim.
  specialize (claim Sample.injected_page eq_refl).
  vm_compute in claim. discriminate claim.
Qed.

(** ** Click routing *)

(** C5. A click on the button of a rendered component: with user details
    present it opens the flyout, by one call of [open] on the flyout
    element, after which the element is open and the flag is up, and no
    login is started; with user details absent it starts [login], and all
    that the click does is what that [login] does. *)
Theorem onClick_routing (w : World) (f : MgtFlyout.t) :
  flyout (self w) = Some f ->
  (truthy (userDetails (self w)) = true ->
   let r := onClick w in
   outcome r = Fulfilled tt /\
   trace r = [FlyoutOpen] /\
   flyout (self (final r)) = Some {| MgtFlyout.isOpen := true |} /\
   (flyout_synced (self w) -> _isFlyoutOpen (self (final r)) = true) /\
   fired loginInitiated (trace r) = false /\
   provider_called (trace r) = false) /\
  (truthy (userDetails (self w)) = false ->
   let r := onClick w in
   outcome r = Fulfilled tt /\
   final r = final (login w) /\
   trace r = trace (login w) /\
   (exists rest, trace r = Fired loginInitiated (self w) :: rest) /\
   flyout (self (final r)) = Some f).
Proof.
  intros Hf. split.
  - intros H r. subst r. rewrite (onClick_signed_in_run w H).
    destruct (showFlyout_effect w Hf) as (Ho & Ht & Hfl & Hflag & _).
    rewrite Ht. auto 10.
  - intros H r. subst r. rewrite (onClick_signed_out_run w H). cbn [outcome final trace].
    rewrite login_self. repeat split; auto.
    destruct (suppressed w loginInitiated) eqn:Hs.
    { rewrite (login_stops_run w H (or_introl Hs)). eexists; reflexivity. }
    destruct (globalProvider w) as [p|] eqn:Hp.
    2:{ rewrite (login_stops_run w H (or_intror (lacks_no_provider _ w Hp))).
        eexists; reflexivity. }
    destruct (IProvider.login p) as [op|] eqn:Hop.
    2:{ rewrite (login_stops_run w H (or_intror (lacks_no_member _ w Hp Hop))).
        eexists; reflexivity. }
    rewrite (login_calls_run w H Hs Hp Hop).
    destruct (snd (op (IProvider.state p))); eexists; reflexivity.
Qed.

Lemma onClick_routing_witness :
  (_isFlyoutOpen (self Sample.signed_in_page) = false /\
   _isFlyoutOpen (self (final (onClick Sample.signed_in_page))) = true) /\
  (let w := Sample.page (Some (Sample.provider SignedOut (SignedIn, Fulfilled tt)))
              Sample.nobody_suppresses in
   trace (onClick w) = trace (login w)).
Proof.
  split.
  - split; [reflexivity|].
    destruct (onClick_routing Sample.signed_in_page eq_refl) as [Hin _].
    destruct (Hin eq_refl) as (_ & _ & _ & Hflag & _).
    apply Hflag. reflexivity.
  - intros w.
    destruct (onClick_routing w eq_refl) as [_ Hout].
    destruct (Hout eq_refl) as (_ & _ & Ht & _).
    exact Ht.
Defined.

(** ** The flyout flag and the user details *)

Lemma showFlyout_invariant (w : World) :
  truthy (userDetails (self w)) = true ->
  flyout_invariant (self w) -> flyout_invariant (self (final (showFlyout w))).
Proof.
  unfold flyout_invariant, flyout_synced, open_implies_details.
  intros H [Hsync Himp]. unfold_async. cbn.
  destruct (flyout (self w)) as [[[|]]|] eqn:Hfl; cbn in *;
    rewrite ?Hfl; cbn; auto.
Qed.

Lemma hideFlyout_invariant (w : World) :
  flyout_invariant (self w) -> flyout_invariant (self (final (hideFlyout w))).
Proof.
  unfold flyout_invariant, flyout_synced, open_implies_details.
  intros [Hsync Himp]. unfold_async. cbn.
  destruct (flyout (self w)) as [[[|]]|] eqn:Hfl; cbn in *;
    rewrite ?Hfl; cbn; auto.
Qed.

Lemma logout_invariant (w : World) :
  flyout_invariant (self w) -> flyout_invariant (self (final (logout w))).
Proof.
  intros Hinv.
  destruct (suppressed w logoutInitiated) eqn:Hs.
  { now rewrite (logout_stops_run w (or_introl Hs)). }
  destruct (globalProvider w) as [p|] eqn:Hp.
  2:{ now rewrite (logout_stops_run w (or_intror (lacks_no_provider _ w Hp))). }
  destruct (IProvider.logout p) as [op|] eqn:Hop.
  2:{ now rewrite (logout_stops_run w (or_intror (lacks_no_member _ w Hp Hop))). }
  revert Hinv. unfold flyout_invariant, flyout_synced, open_implies_details.
  intros [Hsync Himp].
  unfold_async. cbn. rewrite Hs. cbn. rewrite Hp. cbn. rewrite Hop. cbn.
  destruct (snd (op (IProvider.state p))); cbn; auto.
  destruct (flyout (self w)) as [[[|]]|] eqn:Hfl; cbn in *;
    rewrite ?Hfl; cbn; split; auto; try discriminate.
  all: rewrite Hsync; discriminate.
Qed.

Lemma loadState_invariant (w : World) :
  flyout_invariant (self w) -> flyout_invariant (self (final (loadState w))).
Proof.
  intros Hinv.
  destruct (globalProvider w) as [p|] eqn:Hp.
  2:{ now rewrite (loadState_idle_run w (or_introl Hp)). }
  destruct (truthy (userDetails (self w))) eqn:H.
  { now rewrite (loadState_idle_run w (or_intror H)). }
  assert (Hdown : _isFlyoutOpen (self w) = false).
  { destruct Hinv as [_ Himp]. unfold open_implies_details in Himp.
    destruct (_isFlyoutOpen (self w)); [|reflexivity].
    rewrite (Himp eq_refl) in H. discriminate. }
  assert (Hany : forall c, flyout c = flyout (self w) ->
                           _isFlyoutOpen c = _isFlyoutOpen (self w) ->
                           flyout_invariant c).
  { intros c Hc Hflag. destruct Hinv as [Hsync _].
    unfold flyout_invariant, flyout_synced, open_implies_details.
    rewrite Hc, Hflag. split; [exact Hsync|]. rewrite Hdown. discriminate. }
  destruct (ProviderState_eqb (IProvider.state p) SignedIn) eqn:Hst.
  - apply ProviderState_eqb_eq in Hst.
    rewrite (loadState_signed_in_run w Hp H Hst).
    destruct (IProvider.graph p profile_and_photo); cbn; auto.
  - apply ProviderState_eqb_neq in Hst.
    rewrite (loadState_signed_out_run w Hp H Hst). cbn. auto.
Qed.

(** Every action but an emptying write of the user details keeps the flag
    in line with the element and with the user details. *)
Lemma step_invariant (a : Action) (w : World) :
  no_empty_write a ->
  flyout_invariant (self w) -> flyout_invariant (self (step a w)).
Proof.
  intros Hallowed Hinv. destruct a; cbn [step].
  - destruct Hinv as [Hsync Himp]. revert Hsync Himp.
    unfold flyout_invariant, flyout_synced, open_implies_details, firstRender.
    cbn. destruct (flyout (self w)) eqn:Hfl; cbn; rewrite ?Hfl; auto.
  - destruct (truthy (userDetails (self w))) eqn:H.
    + rewrite (onClick_signed_in_run w H). now apply showFlyout_invariant.
    + rewrite (onClick_signed_out_run w H). cbn [final]. now rewrite login_self.
  - now rewrite login_self.
  - now apply logout_invariant.
  - now apply loadState_invariant.
  - now apply hideFlyout_invariant.
  - destruct Hinv as [Hsync _]. cbn in Hallowed. split; [exact Hsync|].
    intros _. exact Hallowed.
  - exact Hinv.
  - exact Hinv.
  - exact Hinv.
Qed.

Lemma reachable_invariant (w : World) :
  reachable no_empty_write w -> flyout_invariant (self w).
Proof.
  induction 1 as [|a w Hw IH Ha].
  - split; [reflexivity | discriminate].
  - now apply step_invariant.
Qed.

(** The flag agrees with the flyout element whatever the page does. *)
Lemma reachable_synced (w : World) :
  reachable any_action w -> flyout_synced (self w).
Proof.
  induction 1 as [|a w Hw IH Ha]; [reflexivity|].
  destruct a; cbn [step]; try exact IH.
  - revert IH. unfold flyout_synced, firstRender.
    cbn. destruct (flyout (self w)) eqn:Hfl; cbn; rewrite ?Hfl; auto.
  - destruct (truthy (userDetails (self w))) eqn:H.
    + rewrite (onClick_signed_in_run w H). revert IH. unfold flyout_synced.
      unfold_async. cbn.
      destruct (flyout (self w)) as [[[|]]|] eqn:Hfl; cbn; rewrite ?Hfl; auto.
    + rewrite (onClick_signed_out_run w H). cbn [final]. now rewrite login_self.
  - now rewrite login_self.
  - destruct (suppressed w logoutInitiated) eqn:Hs.
    { now rewrite (logout_stops_run w (or_introl Hs)). }
    destruct (globalProvider w) as [p|] eqn:Hp.
    2:{ now rewrite (logout_stops_run w (or_intror (lacks_no_provider _ w Hp))). }
    destruct (IProvider.logout p) as [op|] eqn:Hop.
    2:{ now rewrite (logout_stops_run w (or_intror (lacks_no_member _ w Hp Hop))). }
    revert IH. unfold flyout_synced.
    unfold_async. cbn. rewrite Hs. cbn. rewrite Hp. cbn. rewrite Hop. cbn.
    destruct (snd (op (IProvider.state p))); cbn; auto.
    destruct (flyout (self w)) as [[[|]]|] eqn:Hfl; cbn; rewrite ?Hfl; auto.
  - revert IH. unfold flyout_synced. unfold_async. cbn.
    destruct (globalProvider w) as [p|]; cbn; auto.
    destruct (truthy (userDetails (self w))); cbn; auto.
    destruct (ProviderState_eqb (IProvider.state p) SignedIn); cbn; auto.
    destruct (IProvider.graph p _); cbn; auto.
  - revert IH. unfold flyout_synced. unfold_async. cbn.
    destruct (flyout (self w)) as [[[|]]|] eqn:Hfl; cbn; rewrite ?Hfl; auto.
Qed.

(** The popup is rendered only for a component with user details. *)
Lemma renderFlyoutContent_details (c : MgtLogin) :
  renderFlyoutContent c <> None -> truthy (userDetails c) = true.
Proof.
  unfold renderFlyoutContent. destruct (truthy (userDetails c)); cbn; congruence.
Qed.

(** C6, as the code has it.  In every state that the component reaches as
    long as the page does not write an empty value into the user details
    (each method running to its end before the next action), the flyout
    flag is up only when user details are present.  In every state at all,
    the flyout content, with profile and sign-out, is rendered only when
    user details are present, and it shows those details and the one
    command that calls [logout]. *)
Theorem flyout_open_implies_details (w : World) :
  reachable no_empty_write w ->
  open_implies_details (self w) /\
  flyout_synced (self w) /\
  (forall c, renderFlyoutContent c <> None -> truthy (userDetails c) = true) /\
  (forall c popup,
      renderFlyoutContent c = Some popup ->
      personDetails (popupContent popup) = userDetails c /\
      personImage (popupContent popup) = _image c /\
      popupCommands popup = [SignOut logout]).
Proof.
  intros Hr. destruct (reachable_invariant Hr) as [Hsync Himp].
  split; [exact Himp|]. split; [exact Hsync|].
  split; [exact renderFlyoutContent_details|].
  intros c popup. unfold renderFlyoutContent.
  destruct (truthy (userDetails c)); cbn; [|discriminate].
  intros Hp. inversion Hp. cbn. auto.
Qed.

Lemma flyout_open_implies_details_witness :
  let w := run [Render; WriteUserDetails (value Sample.alice); Click] initial in
  _isFlyoutOpen (self w) = true /\ truthy (userDetails (self w)) = true.
Proof.
  intros w.
  assert (Hr : reachable no_empty_write w).
  { subst w. cbn [run fold_left].
    apply reachable_step; [|exact I].
    apply reachable_step; [|reflexivity].
    apply reachable_step; [|exact I].
    apply reachable_initial. }
  destruct (flyout_open_implies_details Hr) as (Himp & _).
  split; [reflexivity | exact (Himp eq_refl)].
Defined.

(** C6, as worded, fails: the page gives user details, the user opens the
    flyout, the page takes the details away; the flag is still up and there
    are no user details (and the flyout then renders no content). *)
Lemma flyout_open_without_details_counterexample :
  (let w := run [Render; WriteUserDetails (value Sample.alice); Click;
                 WriteUserDetails null] initial in
   reachable any_action w /\
   _isFlyoutOpen (self w) = true /\
   userDetails (self w) = null /\
   renderFlyoutContent (self w) = None) /\
  ~ open_implies_details_always.
Proof.
  assert (Hr : reachable any_action
                 (run [Render; WriteUserDetails (value Sample.alice); Click;
                       WriteUserDetails null] initial)).
  { cbn [run fold_left]. repeat (apply reachable_step; [|exact I]).
    apply reachable_initial. }
  split.
  - split; [exact Hr|]. vm_compute. auto.
  - intros claim. specialize (claim _ Hr eq_refl). discriminate claim.
Qed.

(** ** Who writes the user details and the image *)

(** C10. [login] never modifies the user details or the image, however the
    provider's login ends.  Among all that can happen to the component, only
    [loadState], [logout] and a write of the user-details property by the
    page can change either field; every other action, a click included,
    leaves both as they were.  [logout] leaves the image alone, and the
    user details either as they were or null. *)
Theorem login_keeps_person :
  keeps_person login /\
  (forall w, self (final (login w)) = self w) /\
  (forall a w,
      match a with
      | CallLoadState | CallLogout | WriteUserDetails _ => True
      | _ => userDetails (self (step a w)) = userDetails (self w) /\
             _image (self (step a w)) = _image (self w)
      end) /\
  (forall w,
      _image (self (final (logout w))) = _image (self w) /\
      (userDetails (self (final (logout w))) = userDetails (self w) \/
       userDetails (self (final (logout w))) = null)).
Proof.
  split; [|split; [|split]].
  - intros w. now rewrite login_self.
  - exact login_self.
  - intros a w. destruct a; cbn [step]; auto.
    + unfold on_self, firstRender. cbn. destruct (flyout (self w)); auto.
    + apply onClick_keeps.
    + now rewrite login_self.
    + apply hideFlyout_keeps.
  - intros w. split; [apply logout_image|].
    destruct (suppressed w logoutInitiated) eqn:Hs.
    { left. now rewrite (logout_stops_run w (or_introl Hs)). }
    destruct (globalProvider w) as [p|] eqn:Hp.
    2:{ left. now rewrite (logout_stops_run w (or_intror (lacks_no_provider _ w Hp))). }
    destruct (IProvider.logout p) as [op|] eqn:Hop.
    2:{ left. now rewrite (logout_stops_run w (or_intror (lacks_no_member _ w Hp Hop))). }
    unfold_async. cbn. rewrite Hs. cbn. rewrite Hp. cbn. rewrite Hop. cbn.
    destruct (snd (op (IProvider.state p))); cbn; auto.
    destruct (flyout (self w)) as [[[|]]|]; cbn; auto.
Qed.


(** * Further properties of the component *)

(** ** logout, beside the path that completes *)

(** X1. When a listener suppresses logoutInitiated, [logout] returns
    normally and does nothing else: the provider is not called,
    logoutCompleted does not fire, the user stays signed in and the flyout
    stays as it is. *)
Theorem logout_suppressed_is_silent (w : World) :
  suppressed w logoutInitiated = true ->
  let r := logout w in
  outcome r = Fulfilled tt /\
  final r = w /\
  trace r = [Fired logoutInitiated (self w)] /\
  provider_called (trace r) = false /\
  fired logoutCompleted (trace r) = false.
Proof.
  intros Hs r. subst r. rewrite (logout_stops_run w (or_introl Hs)). cbn. auto.
Qed.

Lemma logout_suppressed_is_silent_witness :
  let w := step (InstallListeners (Sample.suppress logoutInitiated)) Sample.flyout_page in
  final (logout w) = w /\ _isFlyoutOpen (self (final (logout w))) = true.
Proof.
  intros w.
  destruct (logout_suppressed_is_silent w eq_refl) as (_ & Hf & _).
  split; [exact Hf|]. rewrite Hf. reflexivity.
Defined.

(** [logout] through the provider, when the awaited promise is not
    fulfilled: the method stops at the [await]. *)
Lemma logout_unsettled_run (w : World) (p : IProvider.t)
    (op : ProviderState -> ProviderState * Outcome unit) :
  suppressed w logoutInitiated = false ->
  globalProvider w = Some p ->
  IProvider.logout p = Some op ->
  let p' := IProvider.with_state p (fst (op (IProvider.state p))) in
  let w' := {| self := self w; globalProvider := Some p'; suppressed := suppressed w |} in
  match snd (op (IProvider.state p)) with
  | Fulfilled _ => True
  | Rejected e =>
      logout w = {| outcome := Rejected e; final := w';
                    trace := [Fired logoutInitiated (self w); ProviderLogout] |}
  | Pending =>
      logout w = {| outcome := Pending; final := w';
                    trace := [Fired logoutInitiated (self w); ProviderLogout] |}
  end.
Proof.
  intros Hs Hp Hop. unfold_async. cbn. rewrite Hs. cbn. rewrite Hp. cbn.
  rewrite Hop. cbn.
  destruct (snd (op (IProvider.state p))); cbn; auto.
Qed.

(** [logout] through the provider, when the awaited promise is fulfilled:
    what the component and the world are when the method returns. *)
Lemma logout_fulfilled_run (w : World) (p : IProvider.t)
    (op : ProviderState -> ProviderState * Outcome unit) :
  suppressed w logoutInitiated = false ->
  globalProvider w = Some p ->
  IProvider.logout p = Some op ->
  snd (op (IProvider.state p)) = Fulfilled tt ->
  let r := logout w in
  let c' := self (final r) in
  outcome r = Fulfilled tt /\
  userDetails c' = null /\
  _image c' = _image (self w) /\
  buttonType c' = buttonType (self w) /\
  flyout_closed c' /\
  (flyout (self w) = None -> flyout c' = None) /\
  suppressed (final r) = suppressed w /\
  globalProvider (final r)
  = Some (IProvider.with_state p (fst (op (IProvider.state p)))) /\
  trace r = ([Fired logoutInitiated (self w); ProviderLogout]
             ++ match flyout (self w) with Some _ => [FlyoutClose] | None => [] end
             ++ [Fired logoutCompleted c'])%list.
Proof.
  intros Hs Hp Hop Hful. unfold_async. cbn. rewrite Hs. cbn.
  rewrite Hp. cbn. rewrite Hop. cbn. rewrite Hful. cbn.
  unfold flyout_closed.
  destruct (flyout (self w)) as [[[|]]|] eqn:Hfl; cbn;
    rewrite ?Hfl; cbn; repeat split; auto; discriminate.
Qed.

(** X2. [logout] catches nothing either.  When the provider's logout
    raises, the exception leaves [logout] right after the provider call: the
    user details, the image and the flyout are untouched, so the component
    still shows the user, and logoutCompleted does not fire.  Whenever
    logoutCompleted fires, [logout] has returned normally from a provider
    logout that was fulfilled. *)
Theorem logout_rejection_propagates :
  (forall w p op e,
      suppressed w logoutInitiated = false ->
      globalProvider w = Some p ->
      IProvider.logout p = Some op ->
      snd (op (IProvider.state p)) = Rejected e ->
      outcome (logout w) = Rejected e /\
      self (final (logout w)) = self w /\
      trace (logout w) = [Fired logoutInitiated (self w); ProviderLogout] /\
      fired logoutCompleted (trace (logout w)) = false) /\
  (forall w,
      fired logoutCompleted (trace (logout w)) = true ->
      outcome (logout w) = Fulfilled tt /\
      suppressed w logoutInitiated = false /\
      exists p op,
        globalProvider w = Some p /\
        IProvider.logout p = Some op /\
        snd (op (IProvider.state p)) = Fulfilled tt).
Proof.
  split.
  - intros w p op e Hs Hp Hop Hrej.
    pose proof (logout_unsettled_run w Hs Hp Hop) as Hrun. cbn zeta in Hrun.
    rewrite Hrej in Hrun. rewrite Hrun. cbn. auto.
  - intros w.
    destruct (suppressed w logoutInitiated) eqn:Hs.
    { rewrite (logout_stops_run w (or_introl Hs)). cbn. discriminate. }
    destruct (globalProvider w) as [p|] eqn:Hp.
    2:{ rewrite (logout_stops_run w (or_intror (lacks_no_provider _ w Hp))).
        cbn. discriminate. }
    destruct (IProvider.logout p) as [op|] eqn:Hop.
    2:{ rewrite (logout_stops_run w (or_intror (lacks_no_member _ w Hp Hop))).
        cbn. discriminate. }
    pose proof (logout_unsettled_run w Hs Hp Hop) as Hrun. cbn zeta in Hrun.
    destruct (snd (op (IProvider.state p))) as [[]|e|] eqn:Hout.
    + intros Hfired. split.
      * destruct (logout_fulfilled_run w Hs Hp Hop Hout) as (Ho & _). exact Ho.
      * split; [reflexivity|]. exists p, op. auto.
    + rewrite Hrun. cbn. discriminate.
    + rewrite Hrun. cbn. discriminate.
Qed.

Lemma logout_rejection_propagates_witness :
  let failing := {| IProvider.state := SignedIn;
                    IProvider.login := None;
                    IProvider.logout := Some (fun st => (st, Rejected "network down"));
                    IProvider.graph := fun _ => Pending |} in
  let w := step (InstallProvider (Some failing)) Sample.flyout_page in
  outcome (logout w) = Rejected "network down" /\
  userDetails (self (final (logout w))) = value Sample.alice /\
  _isFlyoutOpen (self (final (logout w))) = true.
Proof.
  intros failing w.
  destruct (proj1 logout_rejection_propagates w _ _ "network down"
              eq_refl eq_refl eq_refl eq_refl) as (Ho & Hself & _).
  split; [exact Ho|]. rewrite Hself. split; reflexivity.
Defined.

(** ** What login announces *)

(** With no user details, [login] begins by firing loginInitiated. *)
Lemma login_absent_announces (w : World) :
  truthy (userDetails (self w)) = false ->
  exists rest, trace (login w) = Fired loginInitiated (self w) :: rest.
Proof.
  intros H.
  destruct (suppressed w loginInitiated) eqn:Hs.
  { rewrite (login_stops_run w H (or_introl Hs)). eexists; reflexivity. }
  destruct (globalProvider w) as [p|] eqn:Hp.
  2:{ rewrite (login_stops_run w H (or_intror (lacks_no_provider _ w Hp))).
      eexists; reflexivity. }
  destruct (IProvider.login p) as [op|] eqn:Hop.
  2:{ rewrite (login_stops_run w H (or_intror (lacks_no_member _ w Hp Hop))).
      eexists; reflexivity. }
  rewrite (login_calls_run w H Hs Hp Hop).
  destruct (snd (op (IProvider.state p))); eexists; reflexivity.
Qed.

(** X3. [login] never calls the provider unannounced: in every run of
    [login] that calls the provider, there were no user details, the
    loginInitiated notification was fired first and was not suppressed, the
    provider has a login operation, and the provider is called once. *)
Theorem login_call_is_announced (w : World) :
  provider_called (trace (login w)) = true ->
  truthy (userDetails (self w)) = false /\
  suppressed w loginInitiated = false /\
  ~ lacks IProvider.login w /\
  exists rest,
    trace (login w) = Fired loginInitiated (self w) :: ProviderLogin :: rest /\
    provider_called rest = false.
Proof.
  destruct (truthy (userDetails (self w))) eqn:H.
  { rewrite (login_present_run w H). cbn. discriminate. }
  destruct (suppressed w loginInitiated) eqn:Hs.
  { rewrite (login_stops_run w H (or_introl Hs)). cbn. discriminate. }
  destruct (globalProvider w) as [p|] eqn:Hp.
  2:{ rewrite (login_stops_run w H (or_intror (lacks_no_provider _ w Hp))).
      cbn. discriminate. }
  destruct (IProvider.login p) as [op|] eqn:Hop.
  2:{ rewrite (login_stops_run w H (or_intror (lacks_no_member _ w Hp Hop))).
      cbn. discriminate. }
  intros _. split; [reflexivity|]. split; [reflexivity|]. split.
  - unfold lacks. rewrite Hp, Hop. discriminate.
  - rewrite (login_calls_run w H Hs Hp Hop).
    destruct (snd (op (IProvider.state p))); eexists; split; reflexivity.
Qed.

Lemma login_call_is_announced_witness :
  let w := Sample.page (Some (Sample.provider SignedOut (SignedOut, Pending)))
             Sample.nobody_suppresses in
  provider_called (trace (login w)) = true /\
  suppressed w loginInitiated = false.
Proof.
  intros w. split; [reflexivity|].
  destruct (login_call_is_announced w eq_refl) as (_ & Hs & _). exact Hs.
Defined.

(** ** How the methods compose *)

(** X4. A completed [logout] lets the user sign in again: right after it,
    [login] is no longer the no-op it is for a signed-in component, it fires
    loginInitiated. *)
Theorem logout_reenables_login (w : World) (p : IProvider.t)
    (op : ProviderState -> ProviderState * Outcome unit) :
  suppressed w logoutInitiated = false ->
  globalProvider w = Some p ->
  IProvider.logout p = Some op ->
  snd (op (IProvider.state p)) = Fulfilled tt ->
  let w' := final (logout w) in
  truthy (userDetails (self w')) = false /\
  exists rest, trace (login w') = Fired loginInitiated (self w') :: rest.
Proof.
  intros Hs Hp Hop Hful w'. subst w'.
  destruct (logout_fulfilled_run w Hs Hp Hop Hful) as (_ & Hd & _).
  assert (H : truthy (userDetails (self (final (logout w)))) = false)
    by (rewrite Hd; reflexivity).
  split; [exact H|]. now apply login_absent_announces.
Qed.

Lemma logout_reenables_login_witness :
  trace (login Sample.flyout_page) = [] /\
  exists rest,
    trace (login (final (logout Sample.flyout_page)))
    = Fired loginInitiated (self (final (logout Sample.flyout_page))) :: rest.
Proof.
  split; [reflexivity|].
  exact (proj2 (logout_reenables_login Sample.flyout_page
                  eq_refl eq_refl eq_refl eq_refl)).
Defined.

(** X5. Signing in end to end: when [login] runs with no user details, is
    not suppressed, and the provider's login is fulfilled leaving the
    provider SignedIn, then loginCompleted fires, and a [loadState] that
    follows issues the one batch and, when the batch is fulfilled, caches the
    profile and the photo of its response. *)
Theorem login_then_loadState (w : World) (p : IProvider.t)
    (op : ProviderState -> ProviderState * Outcome unit)
    (response : BatchResponse) :
  truthy (userDetails (self w)) = false ->
  suppressed w loginInitiated = false ->
  globalProvider w = Some p ->
  IProvider.login p = Some op ->
  op (IProvider.state p) = (SignedIn, Fulfilled tt) ->
  IProvider.graph p profile_and_photo = Fulfilled response ->
  let r1 := login w in
  let r2 := loadState (final r1) in
  fired loginCompleted (trace r1) = true /\
  outcome r2 = Fulfilled tt /\
  trace r2 = [BatchExecute profile_and_photo] /\
  userDetails (self (final r2)) = me response /\
  _image (self (final r2)) = photo response /\
  _isFlyoutOpen (self (final r2)) = _isFlyoutOpen (self w).
Proof.
  intros H Hs Hp Hop Hres Hgraph r1 r2. subst r1 r2.
  rewrite (login_calls_run w H Hs Hp Hop), Hres. cbn [fst snd final trace].
  split; [reflexivity|].
  set (w1 := {| self := self w;
                globalProvider := Some (IProvider.with_state p SignedIn);
                suppressed := suppressed w |}).
  rewrite (@loadState_signed_in_run w1 (IProvider.with_state p SignedIn)
             eq_refl H eq_refl).
  cbn [IProvider.graph IProvider.with_state]. rewrite Hgraph. cbn. auto.
Qed.

Lemma login_then_loadState_witness :
  let w := Sample.page (Some (Sample.provider SignedOut (SignedIn, Fulfilled tt)))
             Sample.nobody_suppresses in
  userDetails (self (final (loadState (final (login w))))) = value Sample.alice /\
  _image (self (final (loadState (final (login w))))) = value "photo-of-alice".
Proof.
  intros w.
  destruct (@login_then_loadState w _ _
              {| me := value Sample.alice; photo := value "photo-of-alice" |}
              eq_refl eq_refl eq_refl eq_refl eq_refl eq_refl)
    as (_ & _ & _ & Hd & Hi & _).
  split; assumption.
Defined.

(** X6. [loadState] fetches once: after a [loadState] whose batch came back
    with a profile, a second [loadState] issues no batch and changes
    nothing. *)
Theorem loadState_fetches_once (w : World) (p : IProvider.t)
    (response : BatchResponse) :
  globalProvider w = Some p ->
  truthy (userDetails (self w)) = false ->
  IProvider.state p = SignedIn ->
  IProvider.graph p profile_and_photo = Fulfilled response ->
  truthy (me response) = true ->
  let w1 := final (loadState w) in
  loadState w1 = {| outcome := Fulfilled tt; final := w1; trace := [] |}.
Proof.
  intros Hp H Hst Hgraph Hme w1. subst w1.
  rewrite (loadState_signed_in_run w Hp H Hst), Hgraph. cbn [final].
  apply loadState_idle_run. right. exact Hme.
Qed.

Lemma loadState_fetches_once_witness :
  trace (loadState Sample.signed_in_page) = [].
Proof.
  pose proof (@loadState_fetches_once
                (Sample.page (Some (Sample.provider SignedIn (SignedIn, Fulfilled tt)))
                   Sample.nobody_suppresses) _
                {| me := value Sample.alice; photo := value "photo-of-alice" |}
                eq_refl eq_refl eq_refl eq_refl eq_refl) as Hrun.
  cbn zeta in Hrun.
  change (trace (loadState (final (loadState
            (Sample.page (Some (Sample.provider SignedIn (SignedIn, Fulfilled tt)))
               Sample.nobody_suppresses)))) = []).
  rewrite Hrun. reflexivity.
Defined.

(** X7. A batch answered without a profile is not remembered: when the
    response holds no profile, [loadState] still stores the photo of the
    response, the button keeps showing the sign-in label, and the next
    [loadState] issues the batch again. *)
Theorem loadState_empty_profile_refetches (w : World) (p : IProvider.t)
    (response : BatchResponse) :
  globalProvider w = Some p ->
  truthy (userDetails (self w)) = false ->
  IProvider.state p = SignedIn ->
  IProvider.graph p profile_and_photo = Fulfilled response ->
  truthy (me response) = false ->
  let w1 := final (loadState w) in
  _image (self w1) = photo response /\
  renderButtonContent (self w1) = SignInLabel /\
  renderFlyoutContent (self w1) = None /\
  trace (loadState w1) = [BatchExecute profile_and_photo].
Proof.
  intros Hp H Hst Hgraph Hme w1. subst w1.
  rewrite (loadState_signed_in_run w Hp H Hst), Hgraph. cbn [final].
  split; [reflexivity|].
  split; [unfold renderButtonContent; cbn; destruct (me response);
          [reflexivity | reflexivity | discriminate]|].
  split; [unfold renderFlyoutContent; cbn; now rewrite Hme|].
  set (w1 := on_self (fun c => set_userDetails (me response)
                                 (set__image (photo response) c)) w).
  assert (H1 : truthy (userDetails (self w1)) = false) by exact Hme.
  rewrite (@loadState_signed_in_run w1 p Hp H1 Hst), Hgraph.
  reflexivity.
Qed.

Lemma loadState_empty_profile_refetches_witness :
  let silent := {| IProvider.state := SignedIn;
                   IProvider.login := None;
                   IProvider.logout := None;
                   IProvider.graph :=
                     fun _ => Fulfilled {| me := null; photo := value "blank" |} |} in
  let w := Sample.page (Some silent) Sample.nobody_suppresses in
  _image (self (final (loadState w))) = value "blank" /\
  trace (loadState (final (loadState w))) = [BatchExecute profile_and_photo].
Proof.
  intros silent w.
  destruct (@loadState_empty_profile_refetches w silent
              {| me := null; photo := value "blank" |}
              eq_refl eq_refl eq_refl eq_refl eq_refl) as (Hi & _ & _ & Ht).
  split; assumption.
Defined.

(** ** The flyout, opened and closed *)

Lemma MgtLogin_eta (c : MgtLogin) :
  {| userDetails := userDetails c; buttonType := buttonType c;
     _isFlyoutOpen := _isFlyoutOpen c; _image := _image c; flyout := flyout c |} = c.
Proof. destruct c; reflexivity. Qed.

(** X8. Opening and closing the flyout undo each other and repeat
    harmlessly: on a rendered component with the flyout closed,
    [showFlyout] followed by [hideFlyout] gives back the world as it was; a
    second [showFlyout] changes nothing more; and neither method fires a
    notification or calls the provider. *)
Theorem flyout_round_trip (w : World) :
  flyout (self w) = Some {| MgtFlyout.isOpen := false |} ->
  _isFlyoutOpen (self w) = false ->
  let w1 := final (showFlyout w) in
  _isFlyoutOpen (self w1) = true /\
  final (hideFlyout w1) = w /\
  final (showFlyout w1) = w1 /\
  trace (showFlyout w) = [FlyoutOpen] /\
  trace (hideFlyout w1) = [FlyoutClose].
Proof.
  intros Hfl Hflag. destruct w as [c gp s]. cbn in Hfl, Hflag.
  unfold_async. cbn. rewrite Hfl. cbn.
  repeat split; try reflexivity.
  f_equal. rewrite <- (MgtLogin_eta c). cbn. now rewrite Hfl, Hflag.
Qed.

Lemma flyout_round_trip_witness :
  final (hideFlyout (final (showFlyout Sample.signed_in_page)))
  = Sample.signed_in_page.
Proof.
  destruct (flyout_round_trip Sample.signed_in_page eq_refl eq_refl)
    as (_ & Hback & _).
  exact Hback.
Defined.

(** ** The display mode *)

Lemma logout_buttonType (w : World) :
  buttonType (self (final (logout w))) = buttonType (self w).
Proof.
  destruct (suppressed w logoutInitiated) eqn:Hs.
  { now rewrite (logout_stops_run w (or_introl Hs)). }
  destruct (globalProvider w) as [p|] eqn:Hp.
  2:{ now rewrite (logout_stops_run w (or_intror (lacks_no_provider _ w Hp))). }
  destruct (IProvider.logout p) as [op|] eqn:Hop.
  2:{ now rewrite (logout_stops_run w (or_intror (lacks_no_member _ w Hp Hop))). }
  pose proof (logout_unsettled_run w Hs Hp Hop) as Hrun. cbn zeta in Hrun.
  destruct (snd (op (IProvider.state p))) as [[]|e|] eqn:Hout.
  - now destruct (logout_fulfilled_run w Hs Hp Hop Hout) as (_ & _ & _ & Hb & _).
  - now rewrite Hrun.
  - now rewrite Hrun.
Qed.

Lemma loadState_buttonType (w : World) :
  buttonType (self (final (loadState w))) = buttonType (self w).
Proof.
  destruct (globalProvider w) as [p|] eqn:Hp.
  2:{ now rewrite (loadState_idle_run w (or_introl Hp)). }
  destruct (truthy (userDetails (self w))) eqn:H.
  { now rewrite (loadState_idle_run w (or_intror H)). }
  destruct (ProviderState_eqb (IProvider.state p) SignedIn) eqn:Hst.
  - apply ProviderState_eqb_eq in Hst.
    rewrite (loadState_signed_in_run w Hp H Hst).
    destruct (IProvider.graph p profile_and_photo); reflexivity.
  - apply ProviderState_eqb_neq in Hst.
    now rewrite (loadState_signed_out_run w Hp H Hst).
Qed.

(** X10. The display mode belongs to the page: a new component is in mode
    avatarAndName, and nothing that happens to the component changes the
    mode except a write of the button-type property by the page; no method
    of the component, however it ends, touches it. *)
Theorem buttonType_only_written_by_page :
  buttonType constructor = avatarAndName /\
  (forall a w,
      match a with
      | WriteButtonType b => buttonType (self (step a w)) = b
      | _ => buttonType (self (step a w)) = buttonType (self w)
      end).
Proof.
  split; [reflexivity|].
  intros a w. destruct a; cbn [step]; try reflexivity.
  - unfold on_self, firstRender. cbn. destruct (flyout (self w)); reflexivity.
  - destruct (truthy (userDetails (self w))) eqn:H.
    + rewrite (onClick_signed_in_run w H). unfold_async. cbn.
      destruct (flyout (self w)) as [[[|]]|]; reflexivity.
    + rewrite (onClick_signed_out_run w H). cbn [final]. now rewrite login_self.
  - now rewrite login_self.
  - apply logout_buttonType.
  - apply loadState_buttonType.
  - unfold_async. cbn. destruct (flyout (self w)) as [[[|]]|]; reflexivity.
Qed.

(** ** What is rendered *)

(** X11. The button and the flyout agree on who is signed in: the button
    shows the sign-in label exactly when the flyout has no content; and
    when the button shows a person, the flyout shows the same details and
    the same image, the button with the small avatar and the flyout with
    the large one, the name beside the avatar exactly in mode
    avatarAndName. *)
Theorem button_and_flyout_agree (c : MgtLogin) :
  (renderButtonContent c = SignInLabel <-> renderFlyoutContent c = None) /\
  (forall person,
      renderButtonContent c = PersonButton person ->
      exists popup,
        renderFlyoutContent c = Some popup /\
        personDetails (popupContent popup) = personDetails person /\
        personImage (popupContent popup) = personImage person /\
        avatarSize person = small /\
        avatarSize (popupContent popup) = large /\
        buttonType c <> name /\
        (showName person = true <-> buttonType c = avatarAndName)) /\
  (forall text,
      renderButtonContent c = NameSpan text ->
      buttonType c = name /\
      exists u, userDetails c = value u /\ text = displayName u).
Proof.
  unfold renderButtonContent, renderFlyoutContent.
  destruct (userDetails c) as [| |u] eqn:Hu; cbn.
  - split; [split; reflexivity|]. split; intros x Hx; discriminate Hx.
  - split; [split; reflexivity|]. split; intros x Hx; discriminate Hx.
  - destruct (buttonType c) eqn:Hb; cbn.
    + split; [split; discriminate|]. split.
      * intros person Hx. inversion Hx. subst. cbn.
        eexists; split; [reflexivity|]. cbn.
        repeat split; try discriminate; auto.
      * intros x Hx; discriminate Hx.
    + split; [split; discriminate|]. split.
      * intros x Hx; discriminate Hx.
      * intros text Hx. inversion Hx. split; [reflexivity|]. now exists u.
    + split; [split; discriminate|]. split.
      * intros person Hx. inversion Hx. subst. cbn.
        eexists; split; [reflexivity|]. cbn.
        repeat split; try discriminate; auto.
      * intros x Hx; discriminate Hx.
Qed.

Lemma button_and_flyout_agree_witness :
  renderFlyoutContent (self (final (logout Sample.flyout_page))) = None.
Proof.
  apply (proj1 (button_and_flyout_agree _)). reflexivity.
Defined.

(** X12. After a completed [logout] the component looks signed out: the
    button shows the sign-in label and the flyout has no content, whoever
    was shown before. *)
Theorem logout_shows_sign_in (w : World) (p : IProvider.t)
    (op : ProviderState -> ProviderState * Outcome unit) :
  suppressed w logoutInitiated = false ->
  globalProvider w = Some p ->
  IProvider.logout p = Some op ->
  snd (op (IProvider.state p)) = Fulfilled tt ->
  let c' := self (final (logout w)) in
  renderButtonContent c' = SignInLabel /\
  renderFlyoutContent c' = None /\
  (forall loading, buttonContent (renderButton loading c') = SignInLabel).
Proof.
  intros Hs Hp Hop Hful c'. subst c'.
  destruct (logout_fulfilled_run w Hs Hp Hop Hful) as (_ & Hd & _).
  revert Hd. generalize (self (final (logout w))). intros c Hd.
  unfold renderButton, renderButtonContent, renderFlyoutContent. cbn.
  rewrite Hd. cbn. auto.
Qed.

Lemma logout_shows_sign_in_witness :
  renderButtonContent (self Sample.flyout_page) <> SignInLabel /\
  renderButtonContent (self (final (logout Sample.flyout_page))) = SignInLabel.
Proof.
  split; [discriminate|].
  exact (proj1 (logout_shows_sign_in Sample.flyout_page
                  eq_refl eq_refl eq_refl eq_refl)).
Defined.



(** A [login] that ends in an exception has fired neither loginCompleted
    nor loginFailed. *)
Lemma login_rejected_trace (w : World) (e : Exn) :
  outcome (login w) = Rejected e ->
  fired loginCompleted (trace (login w)) = false /\
  fired loginFailed (trace (login w)) = false.
Proof.
  destruct (truthy (userDetails (self w))) eqn:H.
  { rewrite (login_present_run w H). cbn. discriminate. }
  destruct (suppressed w loginInitiated) eqn:Hs.
  { rewrite (login_stops_run w H (or_introl Hs)). cbn. discriminate. }
  destruct (globalProvider w) as [p|] eqn:Hp.
  2:{ rewrite (login_stops_run w H (or_intror (lacks_no_provider _ w Hp))).
      cbn. discriminate. }
  destruct (IProvider.login p) as [op|] eqn:Hop.
  2:{ rewrite (login_stops_run w H (or_intror (lacks_no_member _ w Hp Hop))).
      cbn. discriminate. }
  rewrite (login_calls_run w H Hs Hp Hop).
  destruct (snd (op (IProvider.state p))); cbn; try discriminate. auto.
Qed.

(** X14. A click never throws: [onClick] returns normally in every world,
    also when the [login] it starts ends in an exception or never ends;
    the promise of that [login] is dropped with its outcome. *)
Theorem onClick_never_throws (w : World) :
  outcome (onClick w) = Fulfilled tt /\
  (truthy (userDetails (self w)) = false ->
   forall e, outcome (login w) = Rejected e ->
             trace (onClick w) = trace (login w) /\
             fired loginFailed (trace (onClick w)) = false).
Proof.
  destruct (truthy (userDetails (self w))) eqn:H.
  - split; [|discriminate].
    rewrite (onClick_signed_in_run w H). unfold_async. cbn.
    destruct (flyout (self w)) as [[[|]]|]; reflexivity.
  - rewrite (onClick_signed_out_run w H). cbn [outcome trace].
    split; [reflexivity|]. intros _ e He. split; [reflexivity|].
    exact (proj2 (login_rejected_trace w He)).
Qed.

Lemma onClick_never_throws_witness :
  let w := Sample.page (Some (Sample.provider SignedOut (SignedOut, Rejected "popup closed")))
             Sample.nobody_suppresses in
  outcome (login w) = Rejected "popup closed" /\
  outcome (onClick w) = Fulfilled tt /\
  trace (onClick w) = trace (login w).
Proof.
  intros w. destruct (onClick_never_throws w) as [Ho Hdrop].
  destruct (Hdrop eq_refl "popup closed" eq_refl) as [Ht _].
  split; [reflexivity|]. split; assumption.
Defined.

(** ** The flag, the element and the button *)

(** X9. Whatever the page does, the flag of the component follows the
    flyout element: in every reachable state the flag is up exactly when the
    element is rendered and open.  So the button, which always carries the
    class login-button and is disabled exactly while the component loads,
    carries the class no-click exactly while the flyout is open. *)
Theorem flag_follows_flyout_element (w : World) (loading : bool) :
  reachable any_action w ->
  let b := renderButton loading (self w) in
  (_isFlyoutOpen (self w) = true
   <-> flyout (self w) = Some {| MgtFlyout.isOpen := true |}) /\
  In "login-button" (classes b) /\
  (In "no-click" (classes b)
   <-> flyout (self w) = Some {| MgtFlyout.isOpen := true |}) /\
  disabled b = loading.
Proof.
  intros Hr b. subst b. pose proof (reachable_synced Hr) as Hsync.
  revert Hsync. generalize (self w). intros c Hsync.
  unfold flyout_synced in Hsync. unfold renderButton, classMap. cbn.
  rewrite Hsync.
  destruct (flyout c) as [[[|]]|]; cbn; repeat split; auto;
    try discriminate; intros Hx;
    repeat (destruct Hx as [Hx|Hx]; try discriminate Hx); try contradiction.
Qed.

Lemma flag_follows_flyout_element_witness :
  In "no-click" (classes (renderButton false (self Sample.flyout_page))) /\
  ~ In "no-click" (classes (renderButton false (self (step Dismiss Sample.flyout_page)))).
Proof.
  assert (Hr : reachable any_action Sample.flyout_page).
  { unfold Sample.flyout_page, Sample.signed_in_page.
    change (Sample.page (Some (Sample.provider SignedIn (SignedIn, Fulfilled tt)))
              Sample.nobody_suppresses)
      with (step (InstallProvider
                    (Some (Sample.provider SignedIn (SignedIn, Fulfilled tt))))
              (step Render initial)).
    repeat (apply reachable_step; [|exact I]). apply reachable_initial. }
  split.
  - destruct (flag_follows_flyout_element false Hr) as (_ & _ & Hclick & _).
    apply Hclick. reflexivity.
  - assert (Hr' : reachable any_action (step Dismiss Sample.flyout_page))
      by (apply reachable_step; [exact Hr | exact I]).
    destruct (flag_follows_flyout_element false Hr') as (_ & _ & Hclick & _).
    intros Hin. apply Hclick in Hin. discriminate Hin.
Defined.
